(** * The [icasadi_config.h] header template of OptimizationEngine

    [open-codegen/templates/icasadi_config.h] is a Jinja2 template: literal
    text with three output expressions, [{{nu}}], [{{np}}] and
    [{{ncp or 0}}].  Rendering it against a context (a dictionary from
    variable names to values) gives the C header that the native build of
    the solver includes.

    The development embeds the template as the function [render] from
    contexts to text, together with the part of the expression language the
    template uses (variable lookup, [or], conversion of a value to text),
    and then reads the rendered text back the way a C preprocessor does:
    line by line, directive by directive. *)

From Stdlib Require Import ZArith Strings.String Strings.Ascii Numbers.DecimalString.
From Stdlib Require Import Numbers.DecimalPos Numbers.DecimalZ.
From stdpp Require Import gmap strings list.

Local Open Scope string_scope.
Local Open Scope Z_scope.

(** ** Values and the expression language of the template *)

Module Jinja.

(** The values a context may hold.  [VUndefined] is what a name that the
    context does not bind evaluates to. *)
Inductive value : Type :=
| VUndefined
| VNone
| VBool (b : bool)
| VInt (z : Z)
| VStr (s : string).

Definition context : Type := gmap string value.

(** Name lookup: a missing name is [VUndefined], not an error. *)
Definition var (ctx : context) (x : string) : value :=
  match ctx !! x with
  | Some v => v
  | None => VUndefined
  end.

(** Truth value of an operand of [or]. *)
Definition truthy (v : value) : bool :=
  match v with
  | VUndefined => false
  | VNone => false
  | VBool b => b
  | VInt z => negb (z =? 0)
  | VStr s => negb (String.eqb s "")
  end.

(** [a or b] is [a] when [a] is true and [b] otherwise; the operand
    itself is returned, not a boolean. *)
Definition or_ (a b : value) : value :=
  if truthy a then a else b.

(** Decimal text of an integer: a minus sign for negatives, no leading
    zeros, ["0"] for zero. *)
Definition str_int (z : Z) : string :=
  NilZero.string_of_int (Z.to_int z).

(** Text written by an output expression [{{ e }}]. *)
Definition emit (v : value) : string :=
  match v with
  | VUndefined => ""
  | VNone => "None"
  | VBool true => "True"
  | VBool false => "False"
  | VInt z => str_int z
  | VStr s => s
  end.

End Jinja.

Import Jinja.

(** ** The template *)

(** [render ctx] is the text of [icasadi_config.h] rendered against [ctx]:
    the literal pieces are the template's, byte for byte, and each output
    expression is replaced by what it writes.  The template does not end
    with a newline. *)
Definition render (ctx : context) : string :=
  "/*
 * Auto-generated header file
 * This file is part of OptimizationEngine
 * (see https://alphaville.github.io/optimization-engine/)
 */
#ifndef ICASADI_CONFIG_HEADER_SENTINEL
#define ICASADI_CONFIG_HEADER_SENTINEL

/* Global constant definitions */

/* Number of decision variables */
#define CASADI_NU " +:+ emit (var ctx "nu") +:+ "

/* Number of parameters */
#define CASADI_NP " +:+ emit (var ctx "np") +:+ "

/* Number of constraints to be treated using the penalty method */
#define CASADI_NUM_CONSTAINTS_TYPE_PENALTY " +:+ emit (or_ (var ctx "ncp") (VInt 0)) +:+ "

/* Name of cost function */
#define CASADI_COST_NAME phi

/* Name of the gradient of the cost function */
#define CASADI_GRAD_NAME grad_phi

/* Name of c(x) -- constraints as penalties */
#define CASADI_CONSTRAINTS_AS_PENALTY_NAME constraints_as_penalty

#endif".

(** ** The caller's side *)

(** Modelled from the spec: the record of problem dimensions and the way the
    generator hands it to the template are not part of the template file.
    The three counts are bound to the template variables [nu], [np] and
    [ncp], named after the comments of the template (number of decision
    variables, of parameters, of penalty constraints); an absent penalty
    count leaves [ncp] unbound. *)
Record ProblemDimensions : Type := {
  decision_variable_count : Z;
  parameter_count : Z;
  penalty_constraint_count : option Z
}.

Definition context_of (d : ProblemDimensions) : context :=
  let base : context :=
    <["nu" := VInt (decision_variable_count d)]>
      (<["np" := VInt (parameter_count d)]> ∅) in
  match penalty_constraint_count d with
  | Some c => <["ncp" := VInt c]> base
  | None => base
  end.

Definition render_header (d : ProblemDimensions) : string :=
  render (context_of d).

(** The dimensions the data model allows: no count is negative. *)
Definition valid_dimensions (d : ProblemDimensions) : Prop :=
  0 <= decision_variable_count d /\
  0 <= parameter_count d /\
  match penalty_constraint_count d with
  | Some c => 0 <= c
  | None => True
  end.

(** ** Reading a header back *)

Module Cpp.

Definition newline : ascii := Ascii.ascii_of_nat 10.
Definition space : ascii := Ascii.ascii_of_nat 32.

(** The lines of a text, split at newlines; a text of [n] newlines has
    [n + 1] lines. *)
Fixpoint lines (s : string) : list string :=
  match s with
  | "" => [""]
  | String c s' =>
      if Ascii.eqb c newline then "" :: lines s'
      else match lines s' with
           | l :: ls => String c l :: ls
           | [] => [String c ""]
           end
  end.

(** The inverse direction: lines joined by single newlines. *)
Fixpoint unlines (ls : list string) : string :=
  match ls with
  | [] => ""
  | [l] => l
  | l :: ls' => l +:+ String newline (unlines ls')
  end.

Fixpoint single_line (s : string) : bool :=
  match s with
  | "" => true
  | String c s' => negb (Ascii.eqb c newline) && single_line s'
  end.

(** [strip_prefix p s] is what follows [p] in [s], when [s] starts
    with [p]. *)
Fixpoint strip_prefix (p s : string) : option string :=
  match p, s with
  | "", _ => Some s
  | String a p', String b s' =>
      if Ascii.eqb a b then strip_prefix p' s' else None
  | String _ _, "" => None
  end.

(** Splits at the first space: the word before it and everything after
    it. *)
Fixpoint split_space (s : string) : string * string :=
  match s with
  | "" => ("", "")
  | String c s' =>
      if Ascii.eqb c space then ("", s')
      else let (w, r) := split_space s' in (String c w, r)
  end.

(** The preprocessor directives the header uses. *)
Inductive directive : Type :=
| Ifndef (name : string)
| Define (name body : string)
| Endif.

(** A directive line starts with [#] in its first column. *)
Definition parse_directive (l : string) : option directive :=
  match strip_prefix "#define " l with
  | Some r => let (n, b) := split_space r in Some (Define n b)
  | None =>
      match strip_prefix "#ifndef " l with
      | Some r => Some (Ifndef r)
      | None => if String.eqb l "#endif" then Some Endif else None
      end
  end.

Definition directives (text : string) : list directive :=
  omap parse_directive (lines text).

(** The macros a text defines, in order, as name and replacement text. *)
Definition macro_of (d : directive) : option (string * string) :=
  match d with
  | Define n b => Some (n, b)
  | _ => None
  end.

Definition macro_definitions (text : string) : list (string * string) :=
  omap macro_of (directives text).

(** Replacement text of the first definition of [name]. *)
Fixpoint assoc (name : string) (ms : list (string * string)) : option string :=
  match ms with
  | [] => None
  | (n, b) :: ms' => if String.eqb n name then Some b else assoc name ms'
  end.

Definition macro_lookup (name text : string) : option string :=
  assoc name (macro_definitions text).

(** *** Kinds of replacement text *)

Definition is_digit (c : ascii) : bool :=
  let n := Ascii.nat_of_ascii c in
  ((48 <=? n) && (n <=? 57))%nat.

Definition is_ident_start (c : ascii) : bool :=
  let n := Ascii.nat_of_ascii c in
  (((65 <=? n) && (n <=? 90)) || ((97 <=? n) && (n <=? 122)) || (n =? 95))%nat.

Fixpoint all_chars (p : ascii -> bool) (s : string) : bool :=
  match s with
  | "" => true
  | String c s' => p c && all_chars p s'
  end.

(** An unsigned decimal literal: one digit or more, nothing else. *)
Definition is_decimal (s : string) : bool :=
  match s with
  | "" => false
  | _ => all_chars is_digit s
  end.

(** A C identifier. *)
Definition is_identifier (s : string) : bool :=
  match s with
  | "" => false
  | String c s' =>
      is_ident_start c && all_chars (fun a => is_ident_start a || is_digit a) s'
  end.

Inductive macro_kind : Type :=
| Flag      (* no replacement text: the macro is only a mark *)
| Numeric   (* an unsigned decimal literal *)
| Name      (* an identifier *)
| Other.

Definition kind_of (body : string) : macro_kind :=
  if String.eqb body "" then Flag
  else if is_decimal body then Numeric
  else if is_identifier body then Name
  else Other.

Definition has_kind (k : macro_kind) (m : string * string) : bool :=
  match kind_of m.2, k with
  | Flag, Flag | Numeric, Numeric | Name, Name | Other, Other => true
  | _, _ => false
  end.

(** *** Comments *)

(** [until_close s] cuts [s] at the first comment terminator: the text
    before it and the text after it. *)
Fixpoint until_close (s : string) : option (string * string) :=
  match s with
  | "" => None
  | String c s' =>
      match strip_prefix "*/" s with
      | Some r => Some ("", r)
      | None =>
          match until_close s' with
          | Some (b, r) => Some (String c b, r)
          | None => None
          end
      end
  end.

(** The block comment a text opens with, and what follows it. *)
Definition leading_comment (text : string) : option (string * string) :=
  match strip_prefix "/*" text with
  | Some r => until_close r
  | None => None
  end.

Fixpoint contains (p s : string) : bool :=
  match strip_prefix p s with
  | Some _ => true
  | None =>
      match s with
      | "" => false
      | String _ s' => contains p s'
      end
  end.

(** *** Inclusion *)

Inductive pp_error : Type :=
| Redefinition (name : string)
| StrayEndif.

(** What the preprocessor knows while it reads: the macros defined so
    far, the conditions of the conditionals that are open (innermost
    first), and the errors met. *)
Record pp_state : Type := {
  defined : list (string * string);
  conds : list bool;
  errors : list pp_error
}.

Definition pp_init : pp_state :=
  {| defined := []; conds := []; errors := [] |}.

(** Text is read only where every open conditional holds. *)
Definition active (st : pp_state) : bool := forallb id (conds st).

Definition is_defined (name : string) (st : pp_state) : bool :=
  match assoc name (defined st) with
  | Some _ => true
  | None => false
  end.

Definition step (st : pp_state) (d : directive) : pp_state :=
  match d with
  | Ifndef n =>
      {| defined := defined st;
         conds := negb (is_defined n st) :: conds st;
         errors := errors st |}
  | Define n b =>
      if active st then
        if is_defined n st then
          {| defined := defined st;
             conds := conds st;
             errors := errors st ++ [Redefinition n] |}
        else
          {| defined := defined st ++ [(n, b)];
             conds := conds st;
             errors := errors st |}
      else st
  | Endif =>
      match conds st with
      | [] =>
          {| defined := defined st;
             conds := [];
             errors := errors st ++ [StrayEndif] |}
      | _ :: cs =>
          {| defined := defined st; conds := cs; errors := errors st |}
      end
  end.

(** Including a text in a state. *)
Definition include (text : string) (st : pp_state) : pp_state :=
  foldl step st (directives text).

End Cpp.

Import Cpp.

(** ** The rendered header, line by line *)

Definition sentinel : string := "ICASADI_CONFIG_HEADER_SENTINEL".

(** The lines of a rendered header whose three output expressions wrote
    [nu], [np] and [ncp]. *)
Definition header_lines (nu np ncp : string) : list string :=
  [ "/*";
    " * Auto-generated header file";
    " * This file is part of OptimizationEngine";
    " * (see https://alphaville.github.io/optimization-engine/)";
    " */";
    "#ifndef ICASADI_CONFIG_HEADER_SENTINEL";
    "#define ICASADI_CONFIG_HEADER_SENTINEL";
    "";
    "/* Global constant definitions */";
    "";
    "/* Number of decision variables */";
    "#define CASADI_NU " +:+ nu;
    "";
    "/* Number of parameters */";
    "#define CASADI_NP " +:+ np;
    "";
    "/* Number of constraints to be treated using the penalty method */";
    "#define CASADI_NUM_CONSTAINTS_TYPE_PENALTY " +:+ ncp;
    "";
    "/* Name of cost function */";
    "#define CASADI_COST_NAME phi";
    "";
    "/* Name of the gradient of the cost function */";
    "#define CASADI_GRAD_NAME grad_phi";
    "";
    "/* Name of c(x) -- constraints as penalties */";
    "#define CASADI_CONSTRAINTS_AS_PENALTY_NAME constraints_as_penalty";
    "";
    "#endif" ].

(** The directives of such a header. *)
Definition header_directives (nu np ncp : string) : list directive :=
  [ Ifndef sentinel;
    Define sentinel "";
    Define "CASADI_NU" nu;
    Define "CASADI_NP" np;
    Define "CASADI_NUM_CONSTAINTS_TYPE_PENALTY" ncp;
    Define "CASADI_COST_NAME" "phi";
    Define "CASADI_GRAD_NAME" "grad_phi";
    Define "CASADI_CONSTRAINTS_AS_PENALTY_NAME" "constraints_as_penalty";
    Endif ].

(** The penalty count the template writes for [d]. *)
Definition penalty_or_zero (d : ProblemDimensions) : Z :=
  match penalty_constraint_count d with
  | Some c => c
  | None => 0
  end.

(** The text of the comment the template opens with, between its
    delimiters. *)
Definition banner : string :=
  "
 * Auto-generated header file
 * This file is part of OptimizationEngine
 * (see https://alphaville.github.io/optimization-engine/)
 ".

(** Sample dimensions: all three counts given, the penalty count left
    out, and a negative count. *)
Definition dims_5_7_2 : ProblemDimensions :=
  {| decision_variable_count := 5;
     parameter_count := 7;
     penalty_constraint_count := Some 2 |}.

Definition dims_3_2 : ProblemDimensions :=
  {| decision_variable_count := 3;
     parameter_count := 2;
     penalty_constraint_count := None |}.

Definition dims_negative : ProblemDimensions :=
  {| decision_variable_count := -1;
     parameter_count := 0;
     penalty_constraint_count := None |}.

(** ** Reading the counts back *)

(** The integer a decimal text stands for. *)
Definition parse_int (s : string) : option Z :=
  match NilZero.int_of_string s with
  | Some i => Some (Z.of_int i)
  | None => None
  end.

(** The integer a header gives to the macro [name]. *)
Definition read_count (name text : string) : option Z :=
  match macro_lookup name text with
  | Some body => parse_int body
  | None => None
  end.

(** The two template variables that are written without a fallback, and
    the macro each one fills. *)
Definition plain_slots : list (string * string) :=
  [ ("nu", "CASADI_NU"); ("np", "CASADI_NP") ].


(** A value a count variable is meant to hold, or none at all: an
    integer or an unbound name.  A header rendered from such values has
    only digits and minus signs in its three slots. *)
Definition count_or_unbound (v : value) : bool :=
  match v with
  | VUndefined | VInt _ => true
  | _ => false
  end.

Definition not_text (v : value) : bool :=
  match v with
  | VStr _ => false
  | _ => true
  end.

(** A word: letters, digits, underscores and minus signs, one at
    least; no blank and no comment. *)
Definition is_word_char (c : ascii) : bool :=
  is_ident_start c || is_digit c || Ascii.eqb c "-".

Definition is_word (s : string) : bool :=
  match s with
  | "" => false
  | _ => all_chars is_word_char s
  end.



(** Sample contexts: a penalty count of [None], no [nu] at all, and a
    text value of two lines. *)
Definition ctx_none_penalty : context :=
  <["nu" := VInt 4]> (<["np" := VInt 1]> (<["ncp" := VNone]> ∅)).

Definition ctx_no_nu : context :=
  <["np" := VInt 2]> ∅.


(** ** Lines *)

Section Lines.

Lemma lines_single l :
  single_line l = true -> lines l = [l].
Proof.
  induction l as [|c l IH]; simpl; [reflexivity|].
  intros [Hc Hl]%andb_true_iff.
  apply negb_true_iff in Hc. rewrite Hc, (IH Hl). reflexivity.
Qed.

Lemma lines_app_newline l r :
  single_line l = true ->
  lines (l +:+ String newline r) = l :: lines r.
Proof.
  induction l as [|c l IH]; simpl.
  - reflexivity.
  - intros [Hc Hl]%andb_true_iff.
    apply negb_true_iff in Hc. rewrite Hc, (IH Hl). reflexivity.
Qed.

Lemma lines_unlines ls :
  ls <> [] ->
  Forall (fun l => single_line l = true) ls ->
  lines (unlines ls) = ls.
Proof.
  intros Hne Hall. induction Hall as [|l ls Hl Hls IH]; [congruence|].
  destruct ls as [|l' ls'].
  - simpl. now apply lines_single.
  - change (unlines (l :: l' :: ls'))
      with (l +:+ String newline (unlines (l' :: ls'))).
    rewrite lines_app_newline by assumption.
    f_equal. apply IH. discriminate.
Qed.

End Lines.

(** ** The template, line by line *)

Lemma render_unlines ctx :
  render ctx =
  unlines (header_lines (emit (var ctx "nu")) (emit (var ctx "np"))
             (emit (or_ (var ctx "ncp") (VInt 0)))).
Proof. reflexivity. Qed.

Lemma header_lines_single nu np ncp :
  single_line nu = true -> single_line np = true -> single_line ncp = true ->
  Forall (fun l => single_line l = true) (header_lines nu np ncp).
Proof.
  intros H1 H2 H3. unfold header_lines.
  repeat (apply Forall_cons; split; [first [reflexivity | simpl; assumption]|]).
  apply Forall_nil. exact I.
Qed.

Lemma directives_header_lines nu np ncp :
  omap parse_directive (header_lines nu np ncp) = header_directives nu np ncp.
Proof. reflexivity. Qed.

Lemma directives_render ctx :
  single_line (emit (var ctx "nu")) = true ->
  single_line (emit (var ctx "np")) = true ->
  single_line (emit (or_ (var ctx "ncp") (VInt 0))) = true ->
  directives (render ctx) =
  header_directives (emit (var ctx "nu")) (emit (var ctx "np"))
    (emit (or_ (var ctx "ncp") (VInt 0))).
Proof.
  intros H1 H2 H3. unfold directives.
  rewrite render_unlines, lines_unlines.
  - apply directives_header_lines.
  - discriminate.
  - now apply header_lines_single.
Qed.

(** ** Decimal text *)

Section Decimal.

Lemma uint_digits d : all_chars is_digit (NilEmpty.string_of_uint d) = true.
Proof. induction d; simpl; auto. Qed.

Lemma uint_single_line d : single_line (NilEmpty.string_of_uint d) = true.
Proof. induction d; simpl; auto. Qed.

Lemma nilzero_uint_decimal d : is_decimal (NilZero.string_of_uint d) = true.
Proof. destruct d; simpl; try reflexivity; apply uint_digits. Qed.

Lemma nilzero_uint_single_line d :
  single_line (NilZero.string_of_uint d) = true.
Proof. destruct d; simpl; try reflexivity; apply uint_single_line. Qed.

Lemma str_int_single_line z : single_line (str_int z) = true.
Proof.
  unfold str_int. destruct (Z.to_int z) as [d|d]; simpl.
  - apply nilzero_uint_single_line.
  - apply nilzero_uint_single_line.
Qed.

Lemma str_int_decimal z : 0 <= z -> is_decimal (str_int z) = true.
Proof.
  intros Hz. unfold str_int. destruct z as [|p|p]; simpl.
  - reflexivity.
  - apply nilzero_uint_decimal.
  - lia.
Qed.

Lemma is_decimal_nonempty s : is_decimal s = true -> s <> "".
Proof. destruct s; [discriminate | congruence]. Qed.

Lemma str_int_kind z : 0 <= z -> kind_of (str_int z) = Numeric.
Proof.
  intros Hz. unfold kind_of.
  pose proof (str_int_decimal z Hz) as Hd.
  destruct (String.eqb (str_int z) "") eqn:E.
  - apply String.eqb_eq in E. now apply is_decimal_nonempty in Hd.
  - now rewrite Hd.
Qed.

End Decimal.

(** ** What the template sees of the caller's dimensions *)

Section Dimensions.

Variable d : ProblemDimensions.

Lemma var_nu : var (context_of d) "nu" = VInt (decision_variable_count d).
Proof.
  unfold var, context_of. destruct (penalty_constraint_count d);
    now simplify_map_eq.
Qed.

Lemma var_np : var (context_of d) "np" = VInt (parameter_count d).
Proof.
  unfold var, context_of. destruct (penalty_constraint_count d);
    now simplify_map_eq.
Qed.

Lemma var_ncp :
  var (context_of d) "ncp" =
  match penalty_constraint_count d with
  | Some c => VInt c
  | None => VUndefined
  end.
Proof.
  unfold var, context_of. destruct (penalty_constraint_count d);
    now simplify_map_eq.
Qed.

Lemma emit_ncp :
  emit (or_ (var (context_of d) "ncp") (VInt 0)) = str_int (penalty_or_zero d).
Proof.
  rewrite var_ncp. unfold penalty_or_zero, or_.
  destruct (penalty_constraint_count d) as [c|]; simpl; [|reflexivity].
  destruct (Z.eqb_spec c 0) as [->|]; reflexivity.
Qed.

Lemma directives_render_header :
  directives (render_header d) =
  header_directives (str_int (decision_variable_count d))
    (str_int (parameter_count d)) (str_int (penalty_or_zero d)).
Proof.
  unfold render_header. rewrite directives_render.
  - now rewrite var_nu, var_np, emit_ncp.
  - rewrite var_nu. apply str_int_single_line.
  - rewrite var_np. apply str_int_single_line.
  - rewrite emit_ncp. apply str_int_single_line.
Qed.

Lemma macro_definitions_render_header :
  macro_definitions (render_header d) =
  [ (sentinel, "");
    ("CASADI_NU", str_int (decision_variable_count d));
    ("CASADI_NP", str_int (parameter_count d));
    ("CASADI_NUM_CONSTAINTS_TYPE_PENALTY", str_int (penalty_or_zero d));
    ("CASADI_COST_NAME", "phi");
    ("CASADI_GRAD_NAME", "grad_phi");
    ("CASADI_CONSTRAINTS_AS_PENALTY_NAME", "constraints_as_penalty") ].
Proof.
  unfold macro_definitions. rewrite directives_render_header. reflexivity.
Qed.

End Dimensions.

Lemma render_header_unlines d :
  render_header d =
  unlines (header_lines (str_int (decision_variable_count d))
             (str_int (parameter_count d)) (str_int (penalty_or_zero d))).
Proof.
  unfold render_header.
  now rewrite render_unlines, var_nu, var_np, emit_ncp.
Qed.

Lemma unlines_header_lines_nonempty nu np ncp :
  unlines (header_lines nu np ncp) <> "".
Proof. discriminate. Qed.

(** ** Properties of the rendered header *)

(** C1: rendering the dimensions 5, 7 and 2 gives a header that defines
    [CASADI_NU] as 5, [CASADI_NP] as 7 and
    [CASADI_NUM_CONSTAINTS_TYPE_PENALTY] as 2, on the lines the template
    gives to these macros. *)
Theorem render_field_mapping :
  macro_lookup "CASADI_NU" (render_header dims_5_7_2) = Some "5" /\
  macro_lookup "CASADI_NP" (render_header dims_5_7_2) = Some "7" /\
  macro_lookup "CASADI_NUM_CONSTAINTS_TYPE_PENALTY" (render_header dims_5_7_2)
    = Some "2" /\
  lines (render_header dims_5_7_2) = header_lines "5" "7" "2".
Proof. vm_compute. repeat split. Qed.

(** C2: when the penalty count is absent, the header defines
    [CASADI_NUM_CONSTAINTS_TYPE_PENALTY] as the literal 0: the line of
    that macro is complete and its replacement text is the decimal
    literal ["0"]. *)
Theorem render_default_penalty d :
  penalty_constraint_count d = None ->
  macro_lookup "CASADI_NUM_CONSTAINTS_TYPE_PENALTY" (render_header d)
    = Some "0" /\
  In "#define CASADI_NUM_CONSTAINTS_TYPE_PENALTY 0" (lines (render_header d)) /\
  emit (or_ (var (context_of d) "ncp") (VInt 0)) = "0".
Proof.
  intros Hnone.
  assert (Hp : str_int (penalty_or_zero d) = "0")
    by (unfold penalty_or_zero; now rewrite Hnone).
  split; [|split].
  - unfold macro_lookup. rewrite macro_definitions_render_header, Hp.
    reflexivity.
  - rewrite render_header_unlines, lines_unlines, Hp.
    + unfold header_lines. simpl. tauto.
    + discriminate.
    + apply header_lines_single; apply str_int_single_line.
  - now rewrite emit_ncp.
Qed.

Lemma render_default_penalty_witness :
  penalty_constraint_count dims_3_2 = None /\
  macro_lookup "CASADI_NUM_CONSTAINTS_TYPE_PENALTY" (render_header dims_3_2)
    = Some "0".
Proof.
  split; [reflexivity|].
  exact (proj1 (render_default_penalty dims_3_2 eq_refl)).
Defined.

(** C3: the rendered text is a function of the three template variables
    and of nothing else: two contexts that agree on [nu], [np] and [ncp]
    render to the same text, whatever else they hold. *)
Theorem render_deterministic ctx1 ctx2 :
  var ctx1 "nu" = var ctx2 "nu" ->
  var ctx1 "np" = var ctx2 "np" ->
  var ctx1 "ncp" = var ctx2 "ncp" ->
  render ctx1 = render ctx2.
Proof. intros Hnu Hnp Hncp. unfold render. now rewrite Hnu, Hnp, Hncp. Qed.

Lemma render_deterministic_witness :
  render (<["timestamp" := VInt 1700000000]> (context_of dims_5_7_2)) =
  render (context_of dims_5_7_2).
Proof.
  apply (render_deterministic
           (<["timestamp" := VInt 1700000000]> (context_of dims_5_7_2))
           (context_of dims_5_7_2)); reflexivity.
Defined.

(** C4, as the claim states it, fails: the dimensions -1 and 0 are not
    valid, and still the whole header is rendered, with
    [CASADI_NU] defined as -1. *)
Lemma render_negative_not_rejected :
  ~ valid_dimensions dims_negative /\
  render_header dims_negative <> "" /\
  lines (render_header dims_negative) = header_lines "-1" "0" "0" /\
  macro_lookup "CASADI_NU" (render_header dims_negative) = Some "-1".
Proof.
  split; [|split; [|split]].
  - intros [H _]. simpl in H. lia.
  - discriminate.
  - vm_compute. reflexivity.
  - vm_compute. reflexivity.
Qed.

(** C4, amended: the template validates nothing.  For all integer
    counts, negative ones too, rendering gives the complete header, with
    each count written as its signed decimal text. *)
Theorem render_no_validation d :
  render_header d =
    unlines (header_lines (str_int (decision_variable_count d))
               (str_int (parameter_count d)) (str_int (penalty_or_zero d))) /\
  render_header d <> "" /\
  macro_lookup "CASADI_NU" (render_header d)
    = Some (str_int (decision_variable_count d)) /\
  macro_lookup "CASADI_NP" (render_header d)
    = Some (str_int (parameter_count d)) /\
  macro_lookup "CASADI_NUM_CONSTAINTS_TYPE_PENALTY" (render_header d)
    = Some (str_int (penalty_or_zero d)).
Proof.
  split; [apply render_header_unlines|].
  split; [rewrite render_header_unlines; apply unlines_header_lines_nonempty|].
  unfold macro_lookup. rewrite macro_definitions_render_header.
  repeat split.
Qed.

(** C5: the three symbol-name macros have the same replacement text in
    every rendered header: [phi], [grad_phi] and
    [constraints_as_penalty], whatever the dimensions. *)
Theorem fixed_symbol_bindings d :
  macro_lookup "CASADI_COST_NAME" (render_header d) = Some "phi" /\
  macro_lookup "CASADI_GRAD_NAME" (render_header d) = Some "grad_phi" /\
  macro_lookup "CASADI_CONSTRAINTS_AS_PENALTY_NAME" (render_header d)
    = Some "constraints_as_penalty".
Proof.
  unfold macro_lookup. rewrite macro_definitions_render_header.
  repeat split.
Qed.




(** C7: the header is wrapped in an inclusion guard.  Its first directive
    tests the sentinel, its second defines it, its last closes the
    conditional, and between them there are only macro definitions; so
    the first inclusion defines the seven macros without error, and a
    further inclusion changes nothing and redefines nothing. *)
Theorem header_inclusion_guard d :
  (exists body : list (string * string),
     directives (render_header d) =
       Ifndef sentinel :: Define sentinel "" ::
         map (fun m => Define m.1 m.2) body ++ [Endif] /\
     macro_definitions (render_header d) = (sentinel, "") :: body) /\
  let st1 := include (render_header d) pp_init in
  defined st1 = macro_definitions (render_header d) /\
  conds st1 = [] /\
  errors st1 = [] /\
  include (render_header d) st1 = st1.
Proof.
  unfold include. rewrite macro_definitions_render_header.
  rewrite directives_render_header.
  generalize (str_int (decision_variable_count d))
             (str_int (parameter_count d))
             (str_int (penalty_or_zero d)).
  intros nu np ncp. split.
  - exists [ ("CASADI_NU", nu); ("CASADI_NP", np);
             ("CASADI_NUM_CONSTAINTS_TYPE_PENALTY", ncp);
             ("CASADI_COST_NAME", "phi");
             ("CASADI_GRAD_NAME", "grad_phi");
             ("CASADI_CONSTRAINTS_AS_PENALTY_NAME", "constraints_as_penalty") ].
    split; reflexivity.
  - vm_compute. repeat split.
Qed.

(** C8: every rendered header opens with one block comment, which says
    that the file is generated and names OptimizationEngine; the comment
    holds no directive, and the inclusion guard starts on the line after
    it. *)
Theorem header_leading_comment ctx :
  exists rest,
    leading_comment (render ctx) = Some (banner, rest) /\
    contains "Auto-generated" banner = true /\
    contains "OptimizationEngine" banner = true /\
    directives ("/*" +:+ banner +:+ "*/") = [] /\
    strip_prefix (String newline "#ifndef ICASADI_CONFIG_HEADER_SENTINEL") rest
      <> None.
Proof.
  unfold render.
  generalize (emit (var ctx "nu")) (emit (var ctx "np"))
             (emit (or_ (var ctx "ncp") (VInt 0))).
  intros nu np ncp. eexists. split; [vm_compute; reflexivity|].
  repeat split; vm_compute; discriminate.
Qed.

(** C9: the macros of a rendered header are, in order, the sentinel,
    [CASADI_NU], [CASADI_NP], [CASADI_NUM_CONSTAINTS_TYPE_PENALTY] (so
    spelled: [CASADI_NUM_CONSTRAINTS_TYPE_PENALTY] is not defined),
    [CASADI_COST_NAME] with text [phi], [CASADI_GRAD_NAME] with text
    [grad_phi] and [CASADI_CONSTRAINTS_AS_PENALTY_NAME] with text
    [constraints_as_penalty]. *)
Theorem header_macro_names d :
  map fst (macro_definitions (render_header d)) =
    [ "ICASADI_CONFIG_HEADER_SENTINEL";
      "CASADI_NU";
      "CASADI_NP";
      "CASADI_NUM_CONSTAINTS_TYPE_PENALTY";
      "CASADI_COST_NAME";
      "CASADI_GRAD_NAME";
      "CASADI_CONSTRAINTS_AS_PENALTY_NAME" ] /\
  macro_lookup "CASADI_NUM_CONSTRAINTS_TYPE_PENALTY" (render_header d) = None /\
  In "#define CASADI_COST_NAME phi" (lines (render_header d)) /\
  In "#define CASADI_GRAD_NAME grad_phi" (lines (render_header d)) /\
  In "#define CASADI_CONSTRAINTS_AS_PENALTY_NAME constraints_as_penalty"
    (lines (render_header d)).
Proof.
  split; [|split].
  - rewrite macro_definitions_render_header. reflexivity.
  - unfold macro_lookup. rewrite macro_definitions_render_header. reflexivity.
  - rewrite render_header_unlines, lines_unlines.
    + unfold header_lines. simpl. tauto.
    + discriminate.
    + apply header_lines_single; apply str_int_single_line.
Qed.

(** C10: a penalty count of 0 and an absent penalty count render to the
    same text, and in it the penalty macro is defined as the literal 0:
    the line of the macro is
    [#define CASADI_NUM_CONSTAINTS_TYPE_PENALTY 0] for both. *)
Theorem render_zero_penalty_as_absent nu np :
  let given := {| decision_variable_count := nu;
                  parameter_count := np;
                  penalty_constraint_count := Some 0 |} in
  let absent := {| decision_variable_count := nu;
                   parameter_count := np;
                   penalty_constraint_count := None |} in
  render_header given = render_header absent /\
  macro_lookup "CASADI_NUM_CONSTAINTS_TYPE_PENALTY" (render_header given)
    = Some "0" /\
  macro_lookup "CASADI_NUM_CONSTAINTS_TYPE_PENALTY" (render_header absent)
    = Some "0" /\
  In "#define CASADI_NUM_CONSTAINTS_TYPE_PENALTY 0"
    (lines (render_header given)) /\
  emit (or_ (var (context_of given) "ncp") (VInt 0)) = "0" /\
  emit (or_ (var (context_of absent) "ncp") (VInt 0)) = "0".
Proof.
  intros given absent.
  split; [now rewrite !render_header_unlines|].
  unfold macro_lookup. rewrite !macro_definitions_render_header.
  split; [reflexivity|]. split; [reflexivity|]. split.
  - rewrite render_header_unlines, lines_unlines.
    + unfold header_lines. simpl. tauto.
    + discriminate.
    + apply header_lines_single; apply str_int_single_line.
  - now rewrite !emit_ncp.
Qed.

(** ** Further properties of the template *)

(** The reading of [Cpp] goes line by line and knows neither comments nor
    line splicing: it is exact on headers whose three slots hold integer
    texts or nothing.  What follows states properties of macros and
    directives for such contexts only, and properties of arbitrary
    contexts as properties of the text and of its lines. *)

(** *** The fallback of the penalty count *)

Lemma emit_or_zero_falsy v :
  truthy v = false -> emit (or_ v (VInt 0)) = "0".
Proof. intros H. unfold or_. now rewrite H. Qed.

Lemma var_delete_ne ctx x y :
  x <> y -> var (delete x ctx) y = var ctx y.
Proof.
  intros H. unfold var, context in *.
  now rewrite (lookup_delete_ne (M := gmap string)).
Qed.

Lemma var_delete_eq ctx x : var (delete x ctx) x = VUndefined.
Proof.
  unfold var, context in *.
  now rewrite (lookup_delete_eq (M := gmap string)).
Qed.

(** X1: every value that counts as false (an unbound name, [None], [False],
    0, the empty text) is rendered like an absent penalty count. *)
Theorem falsy_penalty_as_absent ctx :
  truthy (var ctx "ncp") = false ->
  render ctx = render (delete "ncp" ctx).
Proof.
  intros H. rewrite !render_unlines.
  rewrite !var_delete_ne by discriminate.
  rewrite var_delete_eq, (emit_or_zero_falsy _ H).
  reflexivity.
Qed.

Lemma falsy_penalty_as_absent_witness :
  render ctx_none_penalty = render (delete "ncp" ctx_none_penalty).
Proof. apply (falsy_penalty_as_absent ctx_none_penalty). reflexivity. Defined.

(** Character classes and line ends. *)

Lemma all_chars_impl (p q : ascii -> bool) s :
  (forall c, p c = true -> q c = true) ->
  all_chars p s = true -> all_chars q s = true.
Proof.
  intros Hpq. induction s as [|c s IH]; simpl; [reflexivity|].
  intros [Hc Hs]%andb_true_iff. rewrite (Hpq c Hc). now apply IH.
Qed.

Lemma all_chars_single_line (p : ascii -> bool) s :
  p newline = false -> all_chars p s = true -> single_line s = true.
Proof.
  intros Hp. induction s as [|c s IH]; simpl; [reflexivity|].
  intros [Hc Hs]%andb_true_iff. rewrite (IH Hs), andb_true_r.
  destruct (Ascii.eqb_spec c newline) as [->|]; [congruence | reflexivity].
Qed.

Lemma is_decimal_all_digits s : is_decimal s = true -> all_chars is_digit s = true.
Proof. destruct s; [discriminate | trivial]. Qed.

Lemma is_digit_word_char c : is_digit c = true -> is_word_char c = true.
Proof.
  intros H. unfold is_word_char. rewrite H. now rewrite orb_true_r.
Qed.

Lemma is_decimal_word s : is_decimal s = true -> is_word s = true.
Proof.
  intros H. pose proof (is_decimal_all_digits s H) as Hd.
  destruct s; [discriminate|]. unfold is_word.
  now apply (all_chars_impl is_digit), Hd; apply is_digit_word_char.
Qed.

Lemma is_word_single_line s : is_word s = true -> single_line s = true.
Proof.
  destruct s as [|c s]; [discriminate|]. unfold is_word.
  now apply all_chars_single_line.
Qed.

Lemma str_int_word z : is_word (str_int z) = true.
Proof.
  unfold str_int. destruct (Z.to_int z) as [d|d].
  - apply is_decimal_word, nilzero_uint_decimal.
  - change (all_chars is_word_char (NilZero.string_of_uint d) = true).
    apply (all_chars_impl is_digit); [apply is_digit_word_char|].
    apply is_decimal_all_digits, nilzero_uint_decimal.
Qed.

Lemma emit_or_zero_word v :
  not_text v = true -> is_word (emit (or_ v (VInt 0))) = true.
Proof.
  intros Hv. unfold or_. destruct (truthy v) eqn:E; [|reflexivity].
  destruct v as [| |[]|z|s]; simpl in *; try discriminate.
  - reflexivity.
  - apply str_int_word.
Qed.

Lemma count_or_unbound_single_line v :
  count_or_unbound v = true -> single_line (emit v) = true.
Proof.
  destruct v; try discriminate; intros _; simpl.
  - reflexivity.
  - apply str_int_single_line.
Qed.

Lemma count_or_unbound_not_text v :
  count_or_unbound v = true -> not_text v = true.
Proof. now destruct v. Qed.



(** X3: [nu] and [np] have no fallback.  In a context whose three
    variables are integers or unbound, an unbound [nu] (or [np]) leaves
    its macro defined with an empty replacement text: the line is
    [#define CASADI_NU ] and nothing more. *)
Theorem missing_count_empty_macro ctx x macro :
  In (x, macro) plain_slots ->
  ctx !! x = None ->
  count_or_unbound (var ctx "nu") = true ->
  count_or_unbound (var ctx "np") = true ->
  count_or_unbound (var ctx "ncp") = true ->
  macro_lookup macro (render ctx) = Some "" /\
  In ("#define " +:+ macro +:+ " ") (lines (render ctx)).
Proof.
  intros Hin Hx C1 C2 C3.
  pose proof (count_or_unbound_single_line _ C1) as H1.
  pose proof (count_or_unbound_single_line _ C2) as H2.
  pose proof (is_word_single_line _
                (emit_or_zero_word _ (count_or_unbound_not_text _ C3))) as H3.
  assert (Hl : lines (render ctx) =
               header_lines (emit (var ctx "nu")) (emit (var ctx "np"))
                 (emit (or_ (var ctx "ncp") (VInt 0)))).
  { rewrite render_unlines. apply lines_unlines; [discriminate|].
    now apply header_lines_single. }
  unfold macro_lookup, macro_definitions.
  rewrite directives_render by assumption. rewrite Hl.
  destruct Hin as [[= <- <-]|[[= <- <-]|[]]].
  - assert (Hv : var ctx "nu" = VUndefined) by (unfold var; now rewrite Hx).
    rewrite Hv. simpl. split; [reflexivity | tauto].
  - assert (Hv : var ctx "np" = VUndefined) by (unfold var; now rewrite Hx).
    rewrite Hv. simpl. split; [reflexivity | tauto].
Qed.

Lemma missing_count_empty_macro_witness :
  macro_lookup "CASADI_NU" (render ctx_no_nu) = Some "".
Proof.
  refine (proj1 (missing_count_empty_macro ctx_no_nu "nu" "CASADI_NU"
                   _ _ _ _ _)); try reflexivity.
  simpl. tauto.
Defined.

(** *** Lines of any rendered text *)

Section AnyLines.






End AnyLines.


(** X4: values of one line each keep the lines of the template: the rendered
    text has the 29 lines of the template, the three values written at
    the end of the lines 12, 15 and 18. *)
Theorem render_keeps_template_lines ctx :
  single_line (emit (var ctx "nu")) = true ->
  single_line (emit (var ctx "np")) = true ->
  single_line (emit (or_ (var ctx "ncp") (VInt 0))) = true ->
  lines (render ctx) =
    header_lines (emit (var ctx "nu")) (emit (var ctx "np"))
      (emit (or_ (var ctx "ncp") (VInt 0))) /\
  length (lines (render ctx)) = 29%nat.
Proof.
  intros H1 H2 H3.
  assert (Hl : lines (render ctx) =
               header_lines (emit (var ctx "nu")) (emit (var ctx "np"))
                 (emit (or_ (var ctx "ncp") (VInt 0)))).
  { rewrite render_unlines. apply lines_unlines; [discriminate|].
    now apply header_lines_single. }
  split; [exact Hl|]. now rewrite Hl.
Qed.

Lemma render_keeps_template_lines_witness :
  length (lines (render ctx_none_penalty)) = 29%nat.
Proof.
  refine (proj2 (render_keeps_template_lines ctx_none_penalty _ _ _));
    reflexivity.
Defined.











(** *** Reading the counts back *)

Lemma parse_int_str_int z : parse_int (str_int z) = Some z.
Proof.
  unfold parse_int, str_int. rewrite NilZero.isi.
  - now rewrite DecimalZ.of_to.
  - destruct z as [|p|p]; simpl; try discriminate.
    intros [= H]. now apply (DecimalPos.Unsigned.to_uint_nonnil p).
  - destruct z as [|p|p]; simpl; try discriminate.
    intros [= H]. now apply (DecimalPos.Unsigned.to_uint_nonnil p).
Qed.

Lemma str_int_negative_kind z : z < 0 -> kind_of (str_int z) = Other.
Proof.
  destruct z as [|p|p]; try lia. intros _. reflexivity.
Qed.

(** X7: the three counts can be read back from the header: each count macro
    holds the decimal text of the count it was rendered from, the
    penalty macro 0 when the count was absent. *)
Theorem read_count_render_header d :
  read_count "CASADI_NU" (render_header d) = Some (decision_variable_count d) /\
  read_count "CASADI_NP" (render_header d) = Some (parameter_count d) /\
  read_count "CASADI_NUM_CONSTAINTS_TYPE_PENALTY" (render_header d)
    = Some (penalty_or_zero d).
Proof.
  unfold read_count, macro_lookup.
  rewrite macro_definitions_render_header. simpl.
  now rewrite !parse_int_str_int.
Qed.

(** X8: two headers are the same text exactly when their dimensions agree,
    an absent penalty count being the same as 0. *)
Theorem render_header_same_text d1 d2 :
  render_header d1 = render_header d2 <->
  decision_variable_count d1 = decision_variable_count d2 /\
  parameter_count d1 = parameter_count d2 /\
  penalty_or_zero d1 = penalty_or_zero d2.
Proof.
  split.
  - intros Heq.
    assert (Hr : forall n, read_count n (render_header d1)
                           = read_count n (render_header d2))
      by (intros n; now rewrite Heq).
    pose proof (Hr "CASADI_NU") as Hnu.
    pose proof (Hr "CASADI_NP") as Hnp.
    pose proof (Hr "CASADI_NUM_CONSTAINTS_TYPE_PENALTY") as Hncp.
    unfold read_count, macro_lookup in Hnu, Hnp, Hncp.
    rewrite !macro_definitions_render_header in Hnu, Hnp, Hncp.
    simpl in Hnu, Hnp, Hncp.
    rewrite !parse_int_str_int in Hnu, Hnp, Hncp.
    repeat split; congruence.
  - intros (Hnu & Hnp & Hncp).
    now rewrite !render_header_unlines, Hnu, Hnp, Hncp.
Qed.

(** X9: the three count macros are unsigned decimal literals exactly when
    the dimensions are valid: a negative count is written with its minus
    sign, which is no such literal. *)
Theorem numeric_macros_iff_valid d :
  length (List.filter (has_kind Numeric) (macro_definitions (render_header d)))
    = 3%nat <->
  valid_dimensions d.
Proof.
  rewrite macro_definitions_render_header.
  assert (Hk : forall n z,
             has_kind Numeric (n, str_int z) = if Z.leb 0 z then true else false).
  { intros n z. unfold has_kind. simpl.
    destruct (Z.leb_spec 0 z).
    - now rewrite str_int_kind.
    - now rewrite str_int_negative_kind. }
  cbn [List.filter]. rewrite !Hk.
  change (has_kind Numeric (sentinel, "")) with false.
  change (has_kind Numeric ("CASADI_COST_NAME", "phi")) with false.
  change (has_kind Numeric ("CASADI_GRAD_NAME", "grad_phi")) with false.
  change (has_kind Numeric
            ("CASADI_CONSTRAINTS_AS_PENALTY_NAME", "constraints_as_penalty"))
    with false.
  unfold valid_dimensions, penalty_or_zero.
  destruct (penalty_constraint_count d) as [c|];
    destruct (Z.leb_spec 0 (decision_variable_count d));
    destruct (Z.leb_spec 0 (parameter_count d));
    try destruct (Z.leb_spec 0 c); simpl; split;
    try (intros; repeat split; first [lia | discriminate | reflexivity | exact I]);
    try (intros (? & ? & ?); lia);
    try discriminate.
Qed.

(** *** Inclusion in any state *)

(** X10: once the sentinel is defined, including a rendered header changes
    nothing, in whatever state of the preprocessor: no macro is added,
    none is redefined, and the open conditionals are as before. *)
Theorem include_guarded_identity d st :
  is_defined sentinel st = true ->
  include (render_header d) st = st.
Proof.
  intros Hdef. unfold include. rewrite directives_render_header.
  destruct st as [ms cs es]. unfold header_directives.
  cbn [foldl]. unfold step at 9. rewrite Hdef. reflexivity.
Qed.

Lemma include_guarded_identity_witness :
  include (render_header dims_3_2) (include (render_header dims_5_7_2) pp_init)
  = include (render_header dims_5_7_2) pp_init.
Proof.
  apply (include_guarded_identity dims_3_2
           (include (render_header dims_5_7_2) pp_init)).
  reflexivity.
Defined.

(** X11: two rendered headers in one compilation unit: the second is skipped
    as a whole, so the macros keep the values of the first. *)
Theorem second_header_skipped d1 d2 :
  let st := include (render_header d2) (include (render_header d1) pp_init) in
  defined st = macro_definitions (render_header d1) /\
  errors st = [] /\
  conds st = [].
Proof.
  unfold include. rewrite macro_definitions_render_header.
  rewrite !directives_render_header.
  generalize (str_int (decision_variable_count d1))
             (str_int (parameter_count d1)) (str_int (penalty_or_zero d1))
             (str_int (decision_variable_count d2))
             (str_int (parameter_count d2)) (str_int (penalty_or_zero d2)).
  intros. vm_compute. repeat split.
Qed.
